(** * SAT-Prep: quiz session and performance aggregation engine

    A shallow embedding of the parts of the application that carry state
    transition logic and numeric aggregation:

    - [JS]: the fragment of JavaScript's [number] that the code exercises;
    - [AIService]: `services/AIService.ts` (performance analysis,
      recommendations, score prediction, question generation and its
      fallback);
    - [QuestionService]: `services/QuestionService.ts` (the catalog, the
      pool of generated questions, shuffling and [getQuestions]);
    - [QuizScreen]: `screens/QuizScreen.tsx` (the React component that walks
      a question list, as a machine over its hook state).

    Numbers.  A JavaScript [number] is a binary64 float.  The counts the
    code handles are small naturals and the quotients it forms are modelled
    by exact rationals, kept in lowest terms so that equal values are equal
    terms; the results of a division by zero ([NaN], the infinities) are
    explicit constructors.  The rounding error of binary64 is not modelled. *)

From Stdlib Require Import QArith Qround.
From stdpp Require Import base list sets strings pretty.

Local Open Scope string_scope.
Local Open Scope list_scope.

(* ================================================================= *)
(** ** JavaScript numbers *)

Module JS.

Inductive number : Type :=
| Fin (q : Q)
| PosInf
| NegInf
| NaN.

Definition of_Z (z : Z) : number := Fin (inject_Z z).
Definition of_nat (n : nat) : number := of_Z (Z.of_nat n).

Definition Qsign_pos (q : Q) : bool := (0 <? Qnum q)%Z.
Definition Qis_zero (q : Q) : bool := (Qnum q =? 0)%Z.

(** [a / b].  The sign of a zero is not tracked: a non-zero dividend over
    zero takes the sign of the dividend. *)
Definition div (a b : number) : number :=
  match a, b with
  | NaN, _ | _, NaN => NaN
  | Fin x, Fin y =>
      if Qis_zero y then
        if Qis_zero x then NaN
        else if Qsign_pos x then PosInf else NegInf
      else Fin (Qred (x / y))
  | Fin _, (PosInf | NegInf) => Fin 0
  | (PosInf | NegInf), (PosInf | NegInf) => NaN
  | PosInf, Fin y => if Qsign_pos y || Qis_zero y then PosInf else NegInf
  | NegInf, Fin y => if Qsign_pos y || Qis_zero y then NegInf else PosInf
  end.



(** [a < b]: false as soon as one side is [NaN]. *)
Definition lt (a b : number) : bool :=
  match a, b with
  | NaN, _ | _, NaN => false
  | Fin x, Fin y => if Qlt_le_dec x y then true else false
  | NegInf, NegInf => false
  | NegInf, _ => true
  | _, NegInf => false
  | PosInf, _ => false
  | Fin _, PosInf => true
  end.

(** Truthiness of a property read: [undefined], [0] and [NaN] are falsy. *)
Definition truthy (v : option number) : bool :=
  match v with
  | None => false
  | Some (Fin q) => negb (Qis_zero q)
  | Some NaN => false
  | Some (PosInf | NegInf) => true
  end.

(** Comparison against a property read: [x < undefined] is [x < NaN]. *)
Definition lt_read (a : number) (v : option number) : bool :=
  match v with
  | None => false
  | Some b => lt a b
  end.


(** [Math.ceil] of a quotient of two counts, as the code uses it on
    [neededCount / n]; [n = 0] gives [Infinity], which no loop bound
    survives, and is not reached: the divisor is a non-empty length or 4. *)
Definition Math_ceil_div (a b : nat) : nat :=
  Z.to_nat (Qceiling (inject_Z (Z.of_nat a) / inject_Z (Z.of_nat b))).


End JS.

(* ================================================================= *)
(** ** Effects

    The services read the wall clock, draw random numbers, call a remote
    text-generation service and keep a module-level pool of generated
    questions.  Code that does so is written in a state monad; what the
    outside world answers is a stream the state carries, consumed one
    element per call. *)

Module Effects.

Definition State (St A : Type) : Type := St -> A * St.

Global Instance State_ret {St} : MRet (State St) := fun A a s => (a, s).
Global Instance State_bind {St} : MBind (State St) :=
  fun A B f m s => let '(a, s') := m s in f a s'.

Definition run {St A} (m : State St A) (s : St) : A := fst (m s).
Definition exec {St A} (m : State St A) (s : St) : St := snd (m s).

Fixpoint mapM {St A B} (f : A -> State St B) (l : list A) : State St (list B) :=
  match l with
  | [] => mret []
  | x :: l' => y ← f x; ys ← mapM f l'; mret (y :: ys)
  end.

(** [array.map((x, index) => ...)] with an effectful callback. *)
Fixpoint mapiM {St A B} (f : nat -> A -> State St B) (index : nat) (l : list A)
  : State St (list B) :=
  match l with
  | [] => mret []
  | x :: l' => y ← f index x; ys ← mapiM f (S index) l'; mret (y :: ys)
  end.

(** What a [try] block ends with. *)
Inductive completion (A : Type) : Type :=
| Returned (a : A)
| Threw (message : string).
Global Arguments Returned {A} a.
Global Arguments Threw {A} message.

(** [try { body } catch (error) { handler }] *)
Definition try_catch {St A} (body : State St (completion A))
    (handler : string -> State St (completion A)) : State St (completion A) :=
  r ← body;
  match r with
  | Returned a => mret (Returned a)
  | Threw message => handler message
  end.

(** One object of the array that the text-generation service is asked
    for: [question], [options], [correctAnswerIndex], [explanation].  The
    code reads these four properties and checks none of them.  An answer
    in which one of them is missing or of another type is not modelled. *)
Record RawQuestion : Type := mkRawQuestion {
  raw_question : string;
  raw_options : list string;
  raw_correctAnswerIndex : Z;
  raw_explanation : string
}.

(** How one run of the [try] block of [generateAIQuestions] goes. *)
Inductive RemoteOutcome : Type :=
| KeysNotConfigured                       (* [validateApiKeys()] is false *)
| TransportFailure                        (* [axios.post] rejects *)
| ParseFailure                            (* [JSON.parse(...).questions] or [.map] throws *)
| Response (questionsData : list RawQuestion).

Record Env : Type := mkEnv {
  clock : nat -> Z;             (* successive readings of the clock, in ms *)
  entropy : nat -> nat;         (* successive draws of [Math.random] *)
  remote : nat -> RemoteOutcome (* successive generation requests *)
}.

Definition tail {A} (s : nat -> A) : nat -> A := fun k => s (S k).

(** [Date.now()], and the reading behind [new Date()] *)
Definition Date_now : State Env Z :=
  fun e => (clock e 0%nat, mkEnv (tail (clock e)) (entropy e) (remote e)).

(** [Math.floor(Math.random() * n)] for a positive [n]: some index below
    [n], whichever the draw decides. *)
Definition random_below (n : nat) : State Env nat :=
  fun e => ((entropy e 0%nat) `mod` n, mkEnv (clock e) (tail (entropy e)) (remote e)).

Definition next_remote : State Env RemoteOutcome :=
  fun e => (remote e 0%nat, mkEnv (clock e) (entropy e) (tail (remote e))).

End Effects.

(* ================================================================= *)
(** ** services/AIService.ts *)

Module AIService.
Import JS Effects.

Inductive QuestionCategory : Type :=
| Algebra
| Geometry
| Trigonometry
| DataAnalysis
| ReadingComprehension
| Vocabulary
| Grammar
| EssayWriting.

Inductive QuestionDifficulty : Type := Easy | Medium | Hard.

Global Instance QuestionCategory_eq_dec : EqDecision QuestionCategory.
Proof. solve_decision. Defined.

Global Instance QuestionDifficulty_eq_dec : EqDecision QuestionDifficulty.
Proof. solve_decision. Defined.

Definition category_name (c : QuestionCategory) : string :=
  match c with
  | Algebra => "Algebra"
  | Geometry => "Geometry"
  | Trigonometry => "Trigonometry"
  | DataAnalysis => "Data Analysis"
  | ReadingComprehension => "Reading Comprehension"
  | Vocabulary => "Vocabulary"
  | Grammar => "Grammar"
  | EssayWriting => "Essay Writing"
  end.

Definition difficulty_name (d : QuestionDifficulty) : string :=
  match d with Easy => "Easy" | Medium => "Medium" | Hard => "Hard" end.

(** [UserPerformance].  The two counts are naturals wherever the
    application builds a record; [timeSpent] is in seconds. *)
Record UserPerformance : Type := mkUserPerformance {
  correctAnswers : nat;
  totalQuestions : nat;
  timeSpent : Q;
  category : QuestionCategory;
  difficulty : QuestionDifficulty;
  incorrectQuestionIds : list string
}.


(** *** [Record<QuestionCategory, number>]

    A plain object keyed by category names.  Its own keys are enumerated
    in insertion order, which [generateRecommendations] observes through
    [Object.entries]; hence an association list, updated in place when the
    key exists and extended at the end otherwise. *)
Definition CategoryRecord : Type := list (QuestionCategory * number).

Fixpoint obj_get (o : CategoryRecord) (k : QuestionCategory) : option number :=
  match o with
  | [] => None
  | (k', v) :: o' => if decide (k' = k) then Some v else obj_get o' k
  end.

Fixpoint obj_set (o : CategoryRecord) (k : QuestionCategory) (v : number)
  : CategoryRecord :=
  match o with
  | [] => [(k, v)]
  | (k', v') :: o' =>
      if decide (k' = k) then (k, v) :: o' else (k', v') :: obj_set o' k v
  end.

(** *** [analyzePerformance] *)

Definition analyze_step (performanceByCategory : CategoryRecord)
    (perf : UserPerformance) : CategoryRecord :=
  let successRate :=
    div (of_nat (correctAnswers perf)) (of_nat (totalQuestions perf)) in
  if negb (truthy (obj_get performanceByCategory (category perf)))
     || lt_read successRate (obj_get performanceByCategory (category perf))
  then obj_set performanceByCategory (category perf) successRate
  else performanceByCategory.

Definition analyzePerformance (performances : list UserPerformance)
  : CategoryRecord :=
  fold_left analyze_step performances [].

(** *** [generateRecommendations] *)







(** *** [predictSATScore] *)





(** *** Generated questions *)

Record Question : Type := mkQuestion {
  id : string;
  question : string;
  options : list string;
  correctAnswer : Z;
  explanation : string;
  q_category : QuestionCategory;
  q_difficulty : QuestionDifficulty;
  createdAt : Z;
  isGenerated : bool;
  source : option string
}.

(** [getMockQuestionsForCategory]: the loop [for (let i = 0; i < count; i++)],
    [todo] iterations before the end. *)
Fixpoint mock_loop (c : QuestionCategory) (d : QuestionDifficulty)
    (i todo : nat) (questions : list Question) : State Env (list Question) :=
  match todo with
  | O => mret questions
  | S todo' =>
      stamp ← Date_now;
      created ← Date_now;
      mock_loop c d (S i) todo'
        (questions ++
           [ {| id := "gen_" +:+ pretty stamp +:+ "_" +:+ pretty i;
                question := "This is a sample " +:+ category_name c
                              +:+ " question of " +:+ difficulty_name d
                              +:+ " difficulty.";
                options := ["Option A"; "Option B"; "Option C"; "Option D"];
                correctAnswer := 0;
                explanation := "This is an explanation for the correct answer.";
                q_category := c;
                q_difficulty := d;
                createdAt := created;
                isGenerated := true;
                source := Some "GPT-4o (Mock)" |} ])
  end.

Definition getMockQuestionsForCategory (c : QuestionCategory)
    (d : QuestionDifficulty) (count : nat) : State Env (list Question) :=
  mock_loop c d 0 count [].

(** The callback of [questionsData.map] in [generateAIQuestions]. *)
Definition format_question (c : QuestionCategory) (d : QuestionDifficulty)
    (index : nat) (q : RawQuestion) : State Env Question :=
  stamp ← Date_now;
  created ← Date_now;
  mret {| id := "ai_" +:+ pretty stamp +:+ "_" +:+ pretty index;
          question := raw_question q;
          options := raw_options q;
          correctAnswer := raw_correctAnswerIndex q;
          explanation := raw_explanation q;
          q_category := c;
          q_difficulty := d;
          createdAt := created;
          isGenerated := true;
          source := Some "GPT-4" |}.

(** The [try] block of [generateAIQuestions]. *)
Definition generate_try (c : QuestionCategory) (d : QuestionDifficulty)
    (count : nat) : State Env (completion (list Question)) :=
  outcome ← next_remote;
  match outcome with
  | KeysNotConfigured => mret (Threw "API keys not configured")
  | TransportFailure => mret (Threw "Network Error")
  | ParseFailure => mret (Threw "SyntaxError")
  | Response questionsData =>
      qs ← mapiM (format_question c d) 0 questionsData;
      mret (Returned qs)
  end.

(** The [catch] block: log, then fall back to the templates. *)
Definition generate_catch (c : QuestionCategory) (d : QuestionDifficulty)
    (count : nat) (error : string) : State Env (completion (list Question)) :=
  qs ← getMockQuestionsForCategory c d count;
  mret (Returned qs).

Definition generateAIQuestions (c : QuestionCategory) (d : QuestionDifficulty)
    (count : nat) : State Env (completion (list Question)) :=
  try_catch (generate_try c d count) (generate_catch c d count).

End AIService.

(* ================================================================= *)
(** ** services/QuestionService.ts *)

Module QuestionService.
Import JS Effects.
Import AIService(QuestionCategory(..), QuestionDifficulty(..), generateAIQuestions).

(** [lastUpdated] is an ISO date string: a literal in the catalog,
    [new Date().toISOString()] for a converted question.  The rendering of
    a clock reading is kept symbolic. *)
Inductive IsoDate : Type :=
| IsoLiteral (s : string)
| toISOString (ms : Z).

Record Question : Type := mkQuestion {
  id : string;
  text : string;
  options : list string;
  correctAnswer : Z;
  explanation : string;
  category : QuestionCategory;
  difficulty : QuestionDifficulty;
  lastUpdated : IsoDate;
  isAIGenerated : option bool
}.

Record QuizConfig : Type := mkQuizConfig {
  categories : option (list QuestionCategory);
  cfg_difficulty : option QuestionDifficulty;
  count : nat;
  useAI : option bool
}.

Definition dquote : string := String (Ascii.ascii_of_nat 34) EmptyString.

Definition mockQuestions : list Question :=
  [ {| id := "math001";
       text := "If 3x + 7 = 22, what is the value of x?";
       options := ["3"; "4"; "5"; "6"];
       correctAnswer := 2;
       explanation := "To solve for x, subtract 7 from both sides: 3x = 15. Then divide both sides by 3: x = 5.";
       category := Algebra;
       difficulty := Easy;
       lastUpdated := IsoLiteral "2024-01-15T12:00:00Z";
       isAIGenerated := None |};
    {| id := "math002";
       text := "What is the solution to the equation 2x² - 5x - 3 = 0?";
       options := ["x = -0.5 or x = 3"; "x = 0.5 or x = 3";
                   "x = -0.5 or x = -3"; "x = 0.5 or x = -3"];
       correctAnswer := 0;
       explanation := "Using the quadratic formula, x = (-b ± √(b² - 4ac))/(2a), where a=2, b=-5, c=-3. This gives x = (-(-5) ± √(25 + 24))/(2(2)) = (5 ± √49)/4 = (5 ± 7)/4, which simplifies to x = -0.5 or x = 3.";
       category := Algebra;
       difficulty := Medium;
       lastUpdated := IsoLiteral "2024-02-10T09:30:00Z";
       isAIGenerated := None |};
    {| id := "math003";
       text := "In a right triangle, one angle is 90° and another is 35°. What is the measure of the third angle?";
       options := ["45°"; "55°"; "65°"; "75°"];
       correctAnswer := 1;
       explanation := "The sum of angles in a triangle is 180°. If one angle is 90° and another is 35°, then the third angle is 180° - 90° - 35° = 55°.";
       category := Geometry;
       difficulty := Easy;
       lastUpdated := IsoLiteral "2024-01-20T14:15:00Z";
       isAIGenerated := None |};
    {| id := "verbal001";
       text := "Based on the passage, the author's primary purpose is to:";
       options := ["criticize a traditional approach";
                   "advocate for a new perspective";
                   "explain a complex phenomenon";
                   "compare competing theories"];
       correctAnswer := 2;
       explanation := "The author spends most of the passage explaining the details of the phenomenon rather than arguing for a particular position or comparing different viewpoints.";
       category := ReadingComprehension;
       difficulty := Medium;
       lastUpdated := IsoLiteral "2024-02-05T10:45:00Z";
       isAIGenerated := None |};
    {| id := "verbal002";
       text := "Choose the option that best corrects the underlined portion of the sentence: The team of scientists, led by Dr. Chen, have made a significant breakthrough.";
       options := ["have made"; "has made"; "are making"; "is making"];
       correctAnswer := 1;
       explanation := "The subject of the sentence is " +:+ dquote +:+ "team" +:+ dquote
                        +:+ " (singular), not " +:+ dquote +:+ "scientists," +:+ dquote
                        +:+ " so it requires a singular verb form: " +:+ dquote
                        +:+ "has made." +:+ dquote;
       category := Grammar;
       difficulty := Easy;
       lastUpdated := IsoLiteral "2024-01-25T08:20:00Z";
       isAIGenerated := None |} ].

(** The module's state: the outside world and [aiGeneratedQuestions]. *)
Record Store : Type := mkStore {
  env : Env;
  aiGeneratedQuestions : list Question
}.

Definition lift {A} (m : State Env A) : State Store A :=
  fun s => let '(a, e) := m (env s) in (a, mkStore e (aiGeneratedQuestions s)).

Definition read_pool : State Store (list Question) :=
  fun s => (aiGeneratedQuestions s, s).

Definition write_pool (pool : list Question) : State Store unit :=
  fun s => (tt, mkStore (env s) pool).

(** *** [shuffleArray] *)

(** [[a[i], a[j]] = [a[j], a[i]]]: both reads, then the write at [i], then
    the write at [j].  The indices the loop produces are in range. *)
Definition swap {T} (a : list T) (i j : nat) : list T :=
  match a !! i, a !! j with
  | Some ai, Some aj => <[j := ai]> (<[i := aj]> a)
  | _, _ => a
  end.

(** [for (let i = shuffled.length - 1; i > 0; i--)] *)
Fixpoint shuffle_loop {T} (i : nat) (shuffled : list T) : State Env (list T) :=
  match i with
  | O => mret shuffled
  | S i' =>
      j ← random_below (i + 1);
      shuffle_loop i' (swap shuffled i j)
  end.

Definition shuffleArray {T} (array : list T) : State Env (list T) :=
  shuffle_loop (length array - 1) array.

(** *** [getQuestions] *)

(** [config.categories && config.categories.length > 0] *)
Definition categories_given (config : QuizConfig) : bool :=
  match categories config with
  | Some (_ :: _) => true
  | _ => false
  end.

Definition requested (config : QuizConfig) : list QuestionCategory :=
  default [] (categories config).

Definition by_category (config : QuizConfig) (q : Question) : bool :=
  bool_decide (category q ∈ requested config).

Definition by_difficulty (d : QuestionDifficulty) (q : Question) : bool :=
  bool_decide (difficulty q = d).

Definition filter_catalog (config : QuizConfig) : list Question :=
  let filteredQuestions := mockQuestions in
  let filteredQuestions :=
    if categories_given config
    then List.filter (by_category config) filteredQuestions
    else filteredQuestions in
  match cfg_difficulty config with
  | Some d => List.filter (by_difficulty d) filteredQuestions
  | None => filteredQuestions
  end.

Definition matches (config : QuizConfig) (q : Question) : bool :=
  let matches := true in
  let matches :=
    if categories_given config then matches && by_category config q else matches in
  match cfg_difficulty config with
  | Some d => matches && by_difficulty d q
  | None => matches
  end.

(** The conversion of a generated question to this module's interface. *)
Definition convert (q : AIService.Question) : State Env Question :=
  stamp ← Date_now;
  mret {| id := AIService.id q;
          text := AIService.question q;
          options := AIService.options q;
          correctAnswer := AIService.correctAnswer q;
          explanation := AIService.explanation q;
          category := AIService.q_category q;
          difficulty := AIService.q_difficulty q;
          lastUpdated := toISOString stamp;
          isAIGenerated := Some true |}.

(** [for (const category of ...)], inside the [try] of [getQuestions]: a
    throw out of the body leaves the loop with what was gathered. *)
Fixpoint generate_for (cats : list QuestionCategory) (d : QuestionDifficulty)
    (perCategory : nat) (allQuestions : list Question)
  : State Store (list Question) :=
  match cats with
  | [] => mret allQuestions
  | c :: cats' =>
      r ← lift (generateAIQuestions c d perCategory);
      match r with
      | Threw _ => mret allQuestions
      | Returned aiQuestions =>
          convertedQuestions ← lift (mapM convert aiQuestions);
          pool ← read_pool;
          _ ← write_pool (pool ++ convertedQuestions);
          generate_for cats' d perCategory (allQuestions ++ convertedQuestions)
      end
  end.

Definition default_rotation : list QuestionCategory :=
  [Algebra; ReadingComprehension; Grammar; Geometry].

Definition getQuestions (config : QuizConfig) : State Store (list Question) :=
  let filteredQuestions := filter_catalog config in
  pool ← read_pool;
  let matchingAIQuestions := List.filter (matches config) pool in
  allQuestions ← lift (shuffleArray (filteredQuestions ++ matchingAIQuestions));
  allQuestions ←
    (if bool_decide (useAI config = Some true)
        && (length allQuestions <? count config)%nat
     then
       let neededCount := (count config - length allQuestions)%nat in
       let d := default Medium (cfg_difficulty config) in
       allQuestions ←
         (if categories_given config
          then generate_for (requested config) d
                 (Math_ceil_div neededCount (length (requested config)))
                 allQuestions
          else generate_for default_rotation d
                 (Math_ceil_div neededCount 4) allQuestions);
       lift (shuffleArray allQuestions)
     else mret allQuestions);
  mret (take (count config) allQuestions).

End QuestionService.

(* ================================================================= *)
(** ** screens/QuizScreen.tsx

    The component is a function of its hook state.  A handler is a closure
    of the render that created it: it reads the state variables of that
    render and asks for updates, which take effect at the next render.  A
    handler is therefore a function from the rendered state to a list of
    requests; [dispatch] applies them in order, and the effect whose
    dependencies changed runs after the commit. *)

Module QuizScreen.
Import JS Effects.
Import AIService(QuestionCategory(..), QuestionDifficulty(..), UserPerformance).
Import QuestionService(Question).

Record Tally : Type := mkTally {
  correct : nat;
  incorrect : nat;
  skipped : nat
}.

(** [route.params] *)
Record Params : Type := mkParams {
  quizType : string;
  category : QuestionCategory;
  difficulty : QuestionDifficulty;
  questionCount : nat;
  useAI : option bool
}.

(** The state variables that bear on the session ([passage],
    [isGeneratingAI] and the progress animation only feed the layout). *)
Record Hooks : Type := mkHooks {
  questions : list Question;
  currentQuestionIndex : nat;
  selectedAnswer : option Z;
  isAnswerSubmitted : bool;
  isLoading : bool;
  quizStartTime : Z;
  questionStartTime : Z;
  timePerQuestion : list Q;
  results : Tally
}.

(** The [results] object handed to the Results screen. *)
Record ResultsSummary : Type := mkResultsSummary {
  r_correct : nat;
  r_incorrect : nat;
  r_skipped : nat;
  r_totalQuestions : nat;
  r_timeSpent : Q;
  averageTimePerQuestion : number
}.

Record ResultsParams : Type := mkResultsParams {
  summary : ResultsSummary;
  performance : UserPerformance;
  r_quizType : string
}.

Inductive ProgressSection : Type := math | verbal.

(** What a handler or an effect asks for. *)
Inductive Request : Type :=
| setQuestions (v : list Question)
| setCurrentQuestionIndex (v : nat)
| setSelectedAnswer (v : option Z)
| setIsAnswerSubmitted (v : bool)
| setIsLoading (v : bool)
| setQuizStartTime (v : Z)
| setQuestionStartTime (v : Z)
| setTimePerQuestion (f : list Q -> list Q)
| setResults (f : Tally -> Tally)
| Alert_alert (title message : string)
| updateProgress (section : ProgressSection) (correct total : nat)
| navigate_Results (params : ResultsParams)
| goBack.

Inductive Route : Type :=
| Results (params : ResultsParams)
| Back.

(** The mounted screen: the committed state, the dependencies the effect
    last ran with, where navigation went, and what else was called. *)
Record Screen : Type := mkScreen {
  hooks : Hooks;
  deps : nat * nat * bool;
  navigation : option Route;
  alerts : list (string * string);
  progress : list (ProgressSection * nat * nat)
}.

Definition seconds (from to : Z) : Q := Qred (inject_Z (to - from) / inject_Z 1000).

Definition handleSelectAnswer (h : Hooks) (index : nat) : list Request :=
  if negb (isAnswerSubmitted h) then [setSelectedAnswer (Some (Z.of_nat index))]
  else [].

(** Reading [currentQuestion.correctAnswer] past the end of [questions]
    is a TypeError, which ends the handler before it asks for anything. *)
Definition handleSubmitAnswer (h : Hooks) : list Request :=
  match selectedAnswer h with
  | None =>
      [Alert_alert "No Answer Selected" "Please select an answer to continue."]
  | Some selected =>
      match questions h !! currentQuestionIndex h with
      | None => []
      | Some currentQuestion =>
          let isCorrect :=
            bool_decide (selected = QuestionService.correctAnswer currentQuestion) in
          [ setResults (fun prev =>
              {| correct := if isCorrect then correct prev + 1 else correct prev;
                 incorrect := if negb isCorrect then incorrect prev + 1
                              else incorrect prev;
                 skipped := skipped prev |});
            setIsAnswerSubmitted true ]
      end
  end.

Definition sum_times (l : list Q) : Q := Qred (fold_left Qplus l 0%Q).

(** [questions.filter((_, index) => ...)] *)
Fixpoint filter_index {T} (f : nat -> bool) (index : nat) (l : list T) : list T :=
  match l with
  | [] => []
  | x :: l' =>
      if f index then x :: filter_index f (S index) l'
      else filter_index f (S index) l'
  end.

Definition isMathCategory (c : QuestionCategory) : bool :=
  match c with
  | Algebra | Geometry | Trigonometry | DataAnalysis => true
  | _ => false
  end.

(** [finishQuiz]: every state variable it mentions is the one of the
    render [h] whose handler called it. *)
Definition finishQuiz (p : Params) (h : Hooks) : State Env (list Request) :=
  now ← Date_now;
  let totalTime := seconds (quizStartTime h) now in
  let r := results h in
  let performanceData :=
    {| AIService.correctAnswers := correct r;
       AIService.totalQuestions := length (questions h);
       AIService.timeSpent := totalTime;
       AIService.category := category p;
       AIService.difficulty := difficulty p;
       AIService.incorrectQuestionIds :=
         map QuestionService.id
           (filter_index
              (fun index =>
                 if negb (index <? correct r + incorrect r + skipped r)%nat
                 then false
                 else negb (index <? correct r)%nat)
              0 (questions h)) |} in
  mret
    [ updateProgress (if isMathCategory (category p) then math else verbal)
        (correct r) (length (questions h));
      navigate_Results
        {| summary :=
             {| r_correct := correct r;
                r_incorrect := incorrect r;
                r_skipped := skipped r;
                r_totalQuestions := length (questions h);
                r_timeSpent := totalTime;
                averageTimePerQuestion :=
                  div (Fin (sum_times (timePerQuestion h)))
                      (of_nat (length (timePerQuestion h))) |};
           performance := performanceData;
           r_quizType := quizType p |} ].

(** [currentQuestionIndex < questions.length - 1]; on an empty list the
    right-hand side is [-1] and the test fails, as it does here. *)
Definition more_questions (h : Hooks) : bool :=
  (currentQuestionIndex h <? length (questions h) - 1)%nat.

Definition handleNextQuestion (p : Params) (h : Hooks) : State Env (list Request) :=
  if more_questions h
  then mret [setCurrentQuestionIndex (currentQuestionIndex h + 1)]
  else finishQuiz p h.

Definition handleSkipQuestion (p : Params) (h : Hooks) : State Env (list Request) :=
  now ← Date_now;
  let questionTime := seconds (questionStartTime h) now in
  rest ← (if more_questions h
          then mret [setCurrentQuestionIndex (currentQuestionIndex h + 1)]
          else finishQuiz p h);
  mret ([ setResults (fun prev =>
            {| correct := correct prev;
               incorrect := incorrect prev;
               skipped := skipped prev + 1 |});
          setTimePerQuestion (fun prev => prev ++ [questionTime]) ]
        ++ rest).

(** The second [useEffect], with dependencies
    [[currentQuestionIndex, questions.length, progressAnim, isLoading]]. *)
Definition current_deps (h : Hooks) : nat * nat * bool :=
  (currentQuestionIndex h, length (questions h), isLoading h).

Definition transition_effect (h : Hooks) : State Env (list Request) :=
  if negb (isLoading h) then
    now ← Date_now;
    mret ([ setSelectedAnswer None; setIsAnswerSubmitted false ]
          ++ (if (0 <? currentQuestionIndex h)%nat
              then [setTimePerQuestion
                      (fun prev => prev ++ [seconds (questionStartTime h) now])]
              else [])
          ++ [ setQuestionStartTime now ])
  else mret [].

(** *** The runtime *)

Definition set_hooks (s : Screen) (h : Hooks) : Screen :=
  mkScreen h (deps s) (navigation s) (alerts s) (progress s).

Definition apply (s : Screen) (r : Request) : Screen :=
  let h := hooks s in
  match r with
  | setQuestions v =>
      set_hooks s (mkHooks v (currentQuestionIndex h) (selectedAnswer h)
        (isAnswerSubmitted h) (isLoading h) (quizStartTime h)
        (questionStartTime h) (timePerQuestion h) (results h))
  | setCurrentQuestionIndex v =>
      set_hooks s (mkHooks (questions h) v (selectedAnswer h)
        (isAnswerSubmitted h) (isLoading h) (quizStartTime h)
        (questionStartTime h) (timePerQuestion h) (results h))
  | setSelectedAnswer v =>
      set_hooks s (mkHooks (questions h) (currentQuestionIndex h) v
        (isAnswerSubmitted h) (isLoading h) (quizStartTime h)
        (questionStartTime h) (timePerQuestion h) (results h))
  | setIsAnswerSubmitted v =>
      set_hooks s (mkHooks (questions h) (currentQuestionIndex h)
        (selectedAnswer h) v (isLoading h) (quizStartTime h)
        (questionStartTime h) (timePerQuestion h) (results h))
  | setIsLoading v =>
      set_hooks s (mkHooks (questions h) (currentQuestionIndex h)
        (selectedAnswer h) (isAnswerSubmitted h) v (quizStartTime h)
        (questionStartTime h) (timePerQuestion h) (results h))
  | setQuizStartTime v =>
      set_hooks s (mkHooks (questions h) (currentQuestionIndex h)
        (selectedAnswer h) (isAnswerSubmitted h) (isLoading h) v
        (questionStartTime h) (timePerQuestion h) (results h))
  | setQuestionStartTime v =>
      set_hooks s (mkHooks (questions h) (currentQuestionIndex h)
        (selectedAnswer h) (isAnswerSubmitted h) (isLoading h)
        (quizStartTime h) v (timePerQuestion h) (results h))
  | setTimePerQuestion f =>
      set_hooks s (mkHooks (questions h) (currentQuestionIndex h)
        (selectedAnswer h) (isAnswerSubmitted h) (isLoading h)
        (quizStartTime h) (questionStartTime h) (f (timePerQuestion h))
        (results h))
  | setResults f =>
      set_hooks s (mkHooks (questions h) (currentQuestionIndex h)
        (selectedAnswer h) (isAnswerSubmitted h) (isLoading h)
        (quizStartTime h) (questionStartTime h) (timePerQuestion h)
        (f (results h)))
  | Alert_alert title message =>
      mkScreen h (deps s) (navigation s) (alerts s ++ [(title, message)])
        (progress s)
  | updateProgress section c t =>
      mkScreen h (deps s) (navigation s) (alerts s)
        (progress s ++ [(section, c, t)])
  | navigate_Results params =>
      mkScreen h (deps s) (Some (Results params)) (alerts s) (progress s)
  | goBack =>
      mkScreen h (deps s) (Some Back) (alerts s) (progress s)
  end.

(** Apply what was asked for, render, and run the effect when one of its
    dependencies differs from the previous run.  What the effect asks for
    changes none of its dependencies, so one round settles. *)
Definition dispatch (s : Screen) (requests : list Request) : State Env Screen :=
  let s1 := fold_left apply requests s in
  if bool_decide (current_deps (hooks s1) = deps s1) then mret s1
  else
    after ← transition_effect (hooks s1);
    let s2 := fold_left apply after s1 in
    mret (mkScreen (hooks s2) (current_deps (hooks s1)) (navigation s2)
            (alerts s2) (progress s2)).

Definition initial : Screen :=
  {| hooks := {| questions := [];
                 currentQuestionIndex := 0;
                 selectedAnswer := None;
                 isAnswerSubmitted := false;
                 isLoading := true;
                 quizStartTime := 0;
                 questionStartTime := 0;
                 timePerQuestion := [];
                 results := mkTally 0 0 0 |};
     deps := (0%nat, 0%nat, true);
     navigation := None;
     alerts := [];
     progress := [] |}.

(** The tail of [loadQuestions], once [getQuestions] has answered. *)
Definition loaded (fetchedQuestions : list Question) : State Env Screen :=
  now ← Date_now;
  dispatch initial
    [ setQuestions fetchedQuestions;
      setQuizStartTime now;
      setQuestionStartTime now;
      setIsLoading false ].

(** *** What the user can do *)

Inductive Event : Type :=
| PressOption (index : nat)
| PressSubmit
| PressNext
| PressSkip
| ConfirmQuit.

(** The handler behind each control, whether or not it is on screen. *)
Definition press (p : Params) (s : Screen) (ev : Event) : State Env Screen :=
  match ev with
  | PressOption index => dispatch s (handleSelectAnswer (hooks s) index)
  | PressSubmit => dispatch s (handleSubmitAnswer (hooks s))
  | PressNext => requests ← handleNextQuestion p (hooks s); dispatch s requests
  | PressSkip => requests ← handleSkipQuestion p (hooks s); dispatch s requests
  | ConfirmQuit => dispatch s [goBack]
  end.

(** The controls of the rendered screen.  Nothing of the quiz is drawn
    while loading or on an empty list; the option buttons are disabled
    once the answer is submitted; Skip and Submit are drawn before
    submission (Submit disabled without a selection) and Next after it;
    the close button is always there. *)
Definition offered (s : Screen) (ev : Event) : bool :=
  let h := hooks s in
  match navigation s with
  | Some _ => false
  | None =>
      if isLoading h then false
      else
        match questions h !! currentQuestionIndex h with
        | None => false
        | Some currentQuestion =>
            match ev with
            | PressOption index =>
                negb (isAnswerSubmitted h)
                && (index <? length (QuestionService.options currentQuestion))%nat
            | PressSubmit =>
                negb (isAnswerSubmitted h)
                && bool_decide (selectedAnswer h <> None)
            | PressSkip => negb (isAnswerSubmitted h)
            | PressNext => isAnswerSubmitted h
            | ConfirmQuit => true
            end
        end
  end.

Definition step (p : Params) (s : Screen) (ev : Event) : State Env Screen :=
  if offered s ev then press p s ev else mret s.

Fixpoint session (p : Params) (s : Screen) (events : list Event)
  : State Env Screen :=
  match events with
  | [] => mret s
  | ev :: events' => s' ← step p s ev; session p s' events'
  end.

Definition play (p : Params) (fetchedQuestions : list Question)
    (events : list Event) : State Env Screen :=
  s ← loaded fetchedQuestions;
  session p s events.

End QuizScreen.

(* ================================================================= *)
(** ** What the specification says, in its own words

    Definitions written from the specification's sentences, to compare the
    code against. *)

Module Spec.
Import JS AIService.

(** "successRate = correct / totalQuestions per record" *)
Definition successRate (p : UserPerformance) : Q :=
  Qred (inject_Z (Z.of_nat (correctAnswers p))
        / inject_Z (Z.of_nat (totalQuestions p))).

(** "a record with totalQuestions == 0 is excluded from consideration for
    its category" *)
Definition considered (c : QuestionCategory) (p : UserPerformance) : bool :=
  bool_decide (category p = c) && negb (totalQuestions p =? 0)%nat.

Definition rates (c : QuestionCategory) (records : list UserPerformance) : list Q :=
  map successRate (List.filter (considered c) records).

Definition Qmin (a b : Q) : Q := if Qlt_le_dec b a then b else a.

Definition minimum (l : list Q) : option Q :=
  fold_left (fun m r => Some (from_option (fun m => Qmin m r) r m)) l None.

(** "the minimum observed success rate across all records in that
    category" *)
Definition worst_rate (c : QuestionCategory) (records : list UserPerformance)
  : option Q :=
  minimum (rates c records).



(** "Invariant: 0 <= correctAnswerIndex < len(options)" *)
Definition well_formed (q : QuestionService.Question) : Prop :=
  (0 <= QuestionService.correctAnswer q
     < Z.of_nat (length (QuestionService.options q)))%Z.

Definition raw_well_formed (q : Effects.RawQuestion) : Prop :=
  (0 <= Effects.raw_correctAnswerIndex q
     < Z.of_nat (length (Effects.raw_options q)))%Z.

End Spec.

(* ================================================================= *)
(** ** Sample inputs *)

Module Samples.
Import JS Effects AIService.

Definition record (correct total : nat) (c : QuestionCategory) : UserPerformance :=
  {| correctAnswers := correct;
     totalQuestions := total;
     timeSpent := 600;
     category := c;
     difficulty := Medium;
     incorrectQuestionIds := [] |}.

(** A session with no correct answer, then a strong one. *)
Definition zero_then_strong : list UserPerformance :=
  [record 0 10 Algebra; record 9 10 Algebra].

Definition strong_then_weak : list UserPerformance :=
  [record 9 10 Algebra; record 4 10 Algebra].


(** No API keys, and a clock that does not advance within the call: on
    the web build the keys are read synchronously, so the batches of one
    [getQuestions] call are generated within one millisecond. *)
Definition same_millisecond : Env :=
  {| clock := fun _ => 1700000000000%Z;
     entropy := fun k => k;
     remote := fun _ => KeysNotConfigured |}.

(** No API keys, a clock that advances by 7 ms per reading. *)
Definition offline : Env :=
  {| clock := fun k => (1700000000000 + 7 * Z.of_nat k)%Z;
     entropy := fun k => (3 * k + 1)%nat;
     remote := fun _ => KeysNotConfigured |}.

(** A service that answers with an index past the end of the options. *)
Definition careless_answer : RawQuestion :=
  {| raw_question := "Which value of x satisfies 2x = 8?";
     raw_options := ["2"; "3"; "4"; "5"];
     raw_correctAnswerIndex := 4;
     raw_explanation := "Divide both sides by 2." |}.

Definition careless_service : Env :=
  {| clock := fun k => (1700000000000 + 7 * Z.of_nat k)%Z;
     entropy := fun k => k;
     remote := fun _ => Response [careless_answer] |}.

(** Any category, any difficulty, ten questions, generation allowed. *)
Definition mixed_quiz : QuestionService.QuizConfig :=
  {| QuestionService.categories := None;
     QuestionService.cfg_difficulty := None;
     QuestionService.count := 10;
     QuestionService.useAI := Some true |}.

(** The configuration the quiz screen builds for ten medium Algebra
    questions. *)
Definition algebra_quiz (useAI : option bool) : QuestionService.QuizConfig :=
  {| QuestionService.categories := Some [Algebra];
     QuestionService.cfg_difficulty := Some Medium;
     QuestionService.count := 10;
     QuestionService.useAI := useAI |}.

Definition fresh (e : Env) : QuestionService.Store :=
  {| QuestionService.env := e; QuestionService.aiGeneratedQuestions := [] |}.

(** Sessions on the quiz screen. *)
Definition practice : QuizScreen.Params :=
  {| QuizScreen.quizType := "practice";
     QuizScreen.category := Algebra;
     QuizScreen.difficulty := Medium;
     QuizScreen.questionCount := 10;
     QuizScreen.useAI := Some true |}.

Definition one_question : list QuestionService.Question :=
  take 1 QuestionService.mockQuestions.

Definition two_questions : list QuestionService.Question :=
  take 2 QuestionService.mockQuestions.

(** What [getQuestions] answers offline for [algebra_quiz]: the catalog
    question and nine placeholders. *)
Definition ten_questions : list QuestionService.Question :=
  run (QuestionService.getQuestions (algebra_quiz (Some true))) (fresh offline).

Definition answer (choice : nat) : list QuizScreen.Event :=
  [QuizScreen.PressOption choice; QuizScreen.PressSubmit; QuizScreen.PressNext].

(** Three questions answered, the third still on screen. *)
Definition three_answered : list QuizScreen.Event :=
  answer 0 ++ answer 1 ++ [QuizScreen.PressOption 0; QuizScreen.PressSubmit].

(** The first question skipped, the second answered and still on screen. *)
Definition skip_then_answer : list QuizScreen.Event :=
  [QuizScreen.PressSkip; QuizScreen.PressOption 0; QuizScreen.PressSubmit].

End Samples.

(* ================================================================= *)
(** ** Notions used in the statements *)

Import JS Effects AIService.

(** A record with at least one question and at least one correct answer. *)
Definition scored (p : UserPerformance) : Prop :=
  (0 < correctAnswers p)%nat /\ (0 < totalQuestions p)%nat.



(** The three ways the [try] block of [generateAIQuestions] fails. *)
Definition failed (o : RemoteOutcome) : Prop :=
  o = KeysNotConfigured \/ o = TransportFailure \/ o = ParseFailure.

(** A placeholder built from the template of [getMockQuestionsForCategory],
    tagged as generated and as coming from the mock source. *)
Definition is_template (c : QuestionCategory) (d : QuestionDifficulty)
    (q : AIService.Question) : Prop :=
  isGenerated q = true
  /\ source q = Some "GPT-4o (Mock)"
  /\ question q = "This is a sample " +:+ category_name c +:+ " question of "
                    +:+ difficulty_name d +:+ " difficulty."
  /\ AIService.options q = ["Option A"; "Option B"; "Option C"; "Option D"]
  /\ AIService.correctAnswer q = 0%Z
  /\ q_category q = c
  /\ q_difficulty q = d.

Definition generated_well_formed (q : AIService.Question) : Prop :=
  (0 <= AIService.correctAnswer q < Z.of_nat (length (AIService.options q)))%Z.

(** Every answer the service will ever give is well formed. *)
Definition careful_service (e : Env) : Prop :=
  forall k questionsData,
    remote e k = Response questionsData ->
    Forall Spec.raw_well_formed questionsData.

(** A triple for the state monad: from a state in [P], the computation
    ends with a value and a state in [Q]. *)
Definition triple {St A} (P : St -> Prop) (m : State St A)
    (Q : A -> St -> Prop) : Prop :=
  forall s, P s -> Q (fst (m s)) (snd (m s)).

(** A property of the outside world that no reading, draw or request
    can break. *)
Definition stable (P : Env -> Prop) : Prop :=
  forall e, P e ->
    P (mkEnv (tail (clock e)) (entropy e) (remote e))
    /\ P (mkEnv (clock e) (tail (entropy e)) (remote e))
    /\ P (mkEnv (clock e) (entropy e) (tail (remote e))).

(** The questions that match a configuration: catalog, then pool. *)
Definition universe (config : QuestionService.QuizConfig)
    (pool : list QuestionService.Question) : list QuestionService.Question :=
  QuestionService.filter_catalog config
    ++ List.filter (QuestionService.matches config) pool.

Definition store_well_formed (s : QuestionService.Store) : Prop :=
  careful_service (QuestionService.env s)
  /\ Forall Spec.well_formed (QuestionService.aiGeneratedQuestions s).

(** *** The quiz screen *)

Definition tally_sum (t : QuizScreen.Tally) : nat :=
  (QuizScreen.correct t + QuizScreen.incorrect t + QuizScreen.skipped t)%nat.

Definition summary_sum (r : QuizScreen.ResultsSummary) : nat :=
  (QuizScreen.r_correct r + QuizScreen.r_incorrect r + QuizScreen.r_skipped r)%nat.

(** The screens a user can bring about on a fetched list: the loaded
    screen, and whatever a press on the current screen leads to, at any
    readings of the clock. *)
Inductive reachable (p : QuizScreen.Params)
    (fetched : list QuestionService.Question) : QuizScreen.Screen -> Prop :=
| reachable_loaded e :
    reachable p fetched (run (QuizScreen.loaded fetched) e)
| reachable_step s ev e :
    reachable p fetched s ->
    reachable p fetched (run (QuizScreen.step p s ev) e).

(** What holds of a screen while the quiz is on. *)
Record in_progress (fetched : list QuestionService.Question)
    (s : QuizScreen.Screen) : Prop := mk_in_progress {
  ip_questions : QuizScreen.questions (QuizScreen.hooks s) = fetched;
  ip_loaded : QuizScreen.isLoading (QuizScreen.hooks s) = false;
  ip_deps : QuizScreen.deps s = QuizScreen.current_deps (QuizScreen.hooks s);
  ip_tally :
    tally_sum (QuizScreen.results (QuizScreen.hooks s))
    = (QuizScreen.currentQuestionIndex (QuizScreen.hooks s)
       + if QuizScreen.isAnswerSubmitted (QuizScreen.hooks s) then 1 else 0)%nat;
  ip_times :
    length (QuizScreen.timePerQuestion (QuizScreen.hooks s))
    = (QuizScreen.currentQuestionIndex (QuizScreen.hooks s)
       + QuizScreen.skipped (QuizScreen.results (QuizScreen.hooks s)))%nat;
  ip_skipped :
    (QuizScreen.skipped (QuizScreen.results (QuizScreen.hooks s))
     <= QuizScreen.currentQuestionIndex (QuizScreen.hooks s))%nat;
  ip_index :
    (QuizScreen.currentQuestionIndex (QuizScreen.hooks s) < length fetched)%nat
    \/ QuizScreen.currentQuestionIndex (QuizScreen.hooks s) = 0%nat
}.

(* ================================================================= *)
(** ** Properties of the numeric services *)



Lemma Qis_zero_of_nat n : Qis_zero (inject_Z (Z.of_nat n)) = (n =? 0)%nat.
Proof.
  destruct n; reflexivity.
Qed.





(** *** [analyzePerformance] *)

Lemma obj_get_set_eq o k v : obj_get (obj_set o k v) k = Some v.
Proof.
  induction o as [|[k' v'] o IH]; simpl.
  - now rewrite decide_True.
  - destruct (decide (k' = k)) as [->|Hne]; simpl.
    + now rewrite decide_True.
    + now rewrite decide_False.
Qed.

Lemma obj_get_set_ne o k k' v : k <> k' -> obj_get (obj_set o k v) k' = obj_get o k'.
Proof.
  intros Hne. induction o as [|[k0 v0] o IH]; simpl.
  - now rewrite decide_False.
  - destruct (decide (k0 = k)) as [->|Hne0]; simpl.
    + now rewrite !decide_False.
    + destruct (decide (k0 = k')); [reflexivity|exact IH].
Qed.

Lemma analyzePerformance_snoc l p :
  analyzePerformance (l ++ [p]) = analyze_step (analyzePerformance l) p.
Proof. unfold analyzePerformance. now rewrite fold_left_app. Qed.

Lemma rates_snoc c l p :
  Spec.rates c (l ++ [p])
  = Spec.rates c l ++ (if Spec.considered c p then [Spec.successRate p] else []).
Proof.
  unfold Spec.rates. rewrite List.filter_app, map_app. simpl.
  now destruct (Spec.considered c p).
Qed.

Lemma minimum_snoc l r :
  Spec.minimum (l ++ [r])
  = Some (from_option (fun m => Spec.Qmin m r) r (Spec.minimum l)).
Proof. unfold Spec.minimum. now rewrite fold_left_app. Qed.

Lemma minimum_elem l m : Spec.minimum l = Some m -> m ∈ l.
Proof.
  revert m. induction l as [|r l IH] using rev_ind; intros m.
  - discriminate.
  - rewrite minimum_snoc. intros [= <-].
    destruct (Spec.minimum l) as [m'|] eqn:Hm; simpl.
    + unfold Spec.Qmin. destruct (Qlt_le_dec r m').
      * set_solver.
      * specialize (IH _ eq_refl). set_solver.
    + set_solver.
Qed.

Lemma successRate_pos p : scored p -> Qis_zero (Spec.successRate p) = false.
Proof.
  intros [Hc Ht]. unfold Qis_zero. apply Z.eqb_neq. intros Hz.
  assert (Hq : Spec.successRate p == 0).
  { destruct (Spec.successRate p) as [n d]. simpl in Hz. subst n. reflexivity. }
  unfold Spec.successRate in Hq. rewrite Qred_correct in Hq.
  unfold Qeq, Qdiv, Qmult, Qinv in Hq. simpl in Hq.
  destruct (totalQuestions p) as [|t]; [lia|].
  destruct (correctAnswers p) as [|c]; [lia|].
  simpl in Hq. lia.
Qed.

Lemma rates_pos c l r :
  Forall scored l -> r ∈ Spec.rates c l -> Qis_zero r = false.
Proof.
  intros Hl Hr. unfold Spec.rates in Hr.
  apply list_elem_of_fmap in Hr as (p & -> & Hp).
  apply list_elem_of_In, List.filter_In in Hp as [Hp _].
  apply successRate_pos. rewrite Forall_forall in Hl. apply Hl.
  now apply list_elem_of_In.
Qed.

Lemma success_rate_of_scored p :
  scored p ->
  div (of_nat (correctAnswers p)) (of_nat (totalQuestions p))
  = Fin (Spec.successRate p).
Proof.
  intros [_ Ht]. unfold div, of_nat, of_Z, Spec.successRate.
  rewrite Qis_zero_of_nat.
  destruct (totalQuestions p); [lia|]. reflexivity.
Qed.

(** Where the code and the specification agree: when no record has a zero
    count, every category present is mapped to its minimum rate. *)
Lemma analyzePerformance_minimum_when_scored (performances : list UserPerformance)
    (c : QuestionCategory) :
  Forall scored performances ->
  obj_get (analyzePerformance performances) c
  = Fin <$> Spec.worst_rate c performances.
Proof.
  induction performances as [|p l IH] using rev_ind; intros Hall.
  - reflexivity.
  - apply Forall_app in Hall as [Hl Hp]. apply Forall_inv in Hp.
    specialize (IH Hl).
    rewrite analyzePerformance_snoc. unfold Spec.worst_rate in *.
    rewrite rates_snoc. unfold analyze_step.
    rewrite (success_rate_of_scored p Hp).
    unfold Spec.considered.
    destruct (decide (category p = c)) as [Hc|Hc].
    + rewrite bool_decide_eq_true_2 by exact Hc.
      destruct Hp as [Hpc Hpt].
      replace (totalQuestions p =? 0)%nat with false
        by (symmetry; apply Nat.eqb_neq; lia).
      simpl negb. cbv iota. rewrite andb_true_l.
      rewrite minimum_snoc. rewrite Hc, IH.
      destruct (Spec.minimum (Spec.rates c l)) as [m|] eqn:Hm; simpl.
      * rewrite (rates_pos c l m Hl (minimum_elem _ _ Hm)). simpl.
        unfold Spec.Qmin.
        destruct (Qlt_le_dec (Spec.successRate p) m).
        -- now rewrite obj_get_set_eq.
        -- exact IH.
      * now rewrite obj_get_set_eq.
    + rewrite bool_decide_eq_false_2 by exact Hc. simpl.
      rewrite app_nil_r.
      destruct (_ || _); [|exact IH].
      rewrite obj_get_set_ne by exact Hc. exact IH.
Qed.

(** The example of the specification, in either order. *)
Lemma analyzePerformance_example :
  analyzePerformance Samples.strong_then_weak = [(Algebra, Fin (2 # 5))]
  /\ analyzePerformance (rev Samples.strong_then_weak) = [(Algebra, Fin (2 # 5))].
Proof. split; reflexivity. Qed.

(** C2.  At a record with no correct answer followed by a better one for the
    same category, the stored rate 0 reads as falsy and is overwritten:
    Algebra is mapped to 0.9 while the minimum over its records is 0. *)
Theorem analyzePerformance_zero_rate_overwritten :
  obj_get (analyzePerformance Samples.zero_then_strong) Algebra = Some (Fin (9 # 10))
  /\ Spec.worst_rate Algebra Samples.zero_then_strong = Some 0%Q
  /\ obj_get (analyzePerformance Samples.zero_then_strong) Algebra
     <> Fin <$> Spec.worst_rate Algebra Samples.zero_then_strong.
Proof.
  split; [reflexivity | split; [reflexivity |]].
  intros Heq. vm_compute in Heq. discriminate Heq.
Qed.

(** A record without questions is not set aside either: alone in its
    category it is stored as 0/0. *)
Lemma analyzePerformance_empty_record :
  analyzePerformance [Samples.record 0 0 Algebra] = [(Algebra, NaN)]
  /\ Spec.worst_rate Algebra [Samples.record 0 0 Algebra] = None.
Proof. split; reflexivity. Qed.

(** *** [generateRecommendations] *)








(* ================================================================= *)
(** ** Properties of question generation and assembly *)

Section Triples.
Context {St : Type}.

Lemma triple_ret {A} (P : St -> Prop) (a : A) (Q : A -> St -> Prop) :
  (forall s, P s -> Q a s) -> triple P (mret a) Q.
Proof. intros H s Hs. now apply H. Qed.

Lemma triple_bind {A B} (P : St -> Prop) (m : State St A) (f : A -> State St B)
    (R : A -> St -> Prop) (Q : B -> St -> Prop) :
  triple P m R ->
  (forall a, triple (R a) (f a) Q) ->
  triple P (m ≫= f) Q.
Proof.
  intros Hm Hf s Hs. specialize (Hm s Hs).
  unfold mbind, State_bind. destruct (m s) as [a s1]. simpl in Hm.
  now apply Hf.
Qed.

Lemma triple_weaken {A} (P P' : St -> Prop) (m : State St A)
    (Q Q' : A -> St -> Prop) :
  triple P' m Q' ->
  (forall s, P s -> P' s) ->
  (forall a s, Q' a s -> Q a s) ->
  triple P m Q.
Proof. intros Hm HP HQ s Hs. apply HQ, Hm, HP, Hs. Qed.

Lemma triple_assume {A} (phi : Prop) (P : St -> Prop) (m : State St A)
    (Q : A -> St -> Prop) :
  (phi -> triple P m Q) -> triple (fun s => phi /\ P s) m Q.
Proof. intros H s [Hphi Hs]. now apply H. Qed.

End Triples.

Create HintDb stable.

Lemma stable_True : stable (fun _ => True).
Proof. intros e _. auto. Qed.

Lemma stable_careful : stable careful_service.
Proof.
  intros e He. repeat split; intros k qd Hk; simpl in Hk.
  - exact (He k qd Hk).
  - exact (He k qd Hk).
  - exact (He (S k) qd Hk).
Qed.

#[local] Hint Resolve stable_True stable_careful : stable.

Lemma triple_Date_now (P : Env -> Prop) :
  stable P -> triple P Date_now (fun _ e => P e).
Proof. intros HP e He. apply (HP e He). Qed.

(** *** The fallback *)

Lemma mock_loop_spec (P : Env -> Prop) c d :
  stable P ->
  forall todo i questions,
    Forall (is_template c d) questions ->
    triple P (mock_loop c d i todo questions)
      (fun qs e => P e /\ length qs = (length questions + todo)%nat
                   /\ Forall (is_template c d) qs).
Proof.
  intros HP todo. induction todo as [|todo IH]; intros i questions Hq; simpl.
  - apply triple_ret. intros e He. split; [exact He|]. split; [lia|exact Hq].
  - eapply triple_bind; [apply (triple_Date_now P HP)|]. intros stamp. simpl.
    eapply triple_bind; [apply (triple_Date_now P HP)|]. intros created. simpl.
    eapply triple_weaken; [apply IH| auto |].
    + apply Forall_app. split; [exact Hq|].
      apply Forall_singleton. repeat split.
    + intros qs e (He & Hlen & Hall). split; [exact He|].
      split; [|exact Hall]. rewrite Hlen, length_app. simpl. lia.
Qed.

Lemma getMockQuestionsForCategory_spec (P : Env -> Prop) c d count :
  stable P ->
  triple P (getMockQuestionsForCategory c d count)
    (fun qs e => P e /\ length qs = count /\ Forall (is_template c d) qs).
Proof.
  intros HP. unfold getMockQuestionsForCategory.
  eapply triple_weaken; [apply (mock_loop_spec P c d HP count 0 [])| auto |].
  - constructor.
  - intros qs e (He & Hlen & Hall). auto.
Qed.

(** C7.  [generateAIQuestions] always returns and never throws; when the
    keys are missing, the transport fails or the answer does not parse, what
    it returns is exactly [count] placeholders from the template, each
    tagged as generated. *)
Theorem generateAIQuestions_absorbs_failures (c : QuestionCategory)
    (d : QuestionDifficulty) (count : nat) (e : Env) :
  exists qs,
    run (generateAIQuestions c d count) e = Returned qs
    /\ (failed (remote e 0%nat) ->
        length qs = count /\ Forall (is_template c d) qs).
Proof.
  unfold run, generateAIQuestions, try_catch, generate_try, generate_catch.
  unfold mbind, State_bind, next_remote. simpl.
  pose proof (getMockQuestionsForCategory_spec (fun _ => True) c d count
                stable_True) as Hmock.
  destruct (remote e 0%nat) as [| | |questionsData] eqn:Hremote; simpl.
  1-3: match goal with |- context [getMockQuestionsForCategory _ _ _ ?e0] =>
         specialize (Hmock e0 I);
         destruct (getMockQuestionsForCategory _ _ _ e0) as [qs e1]
       end; simpl in *; exists qs; split; [reflexivity | intros _; tauto].
  destruct (mapiM (format_question c d) 0 questionsData _) as [qs e1].
  exists qs. split; [reflexivity|].
  intros [H|[H|H]]; discriminate H.
Qed.

Lemma generateAIQuestions_absorbs_failures_witness :
  exists qs,
    run (generateAIQuestions Algebra Medium 3) Samples.offline = Returned qs
    /\ length qs = 3%nat /\ Forall (is_template Algebra Medium) qs.
Proof.
  destruct (generateAIQuestions_absorbs_failures Algebra Medium 3 Samples.offline)
    as (qs & Hrun & Hfail).
  exists qs. split; [exact Hrun|].
  apply Hfail. left. reflexivity.
Defined.

(** *** Shuffling *)

Import QuestionService.

Lemma swap_perm {T} (a : list T) i j : swap a i j ≡ₚ a.
Proof.
  unfold swap. destruct (a !! i) as [ai|] eqn:Hi; [|reflexivity].
  destruct (a !! j) as [aj|] eqn:Hj; [|reflexivity].
  now apply Permutation_insert_swap.
Qed.

Lemma shuffle_loop_spec {T} (P : Env -> Prop) :
  stable P ->
  forall i (l : list T),
    triple P (shuffle_loop i l) (fun l' e => P e /\ l' ≡ₚ l).
Proof.
  intros HP i. induction i as [|i IH]; intros l.
  - apply triple_ret. auto.
  - intros e He. simpl. unfold mbind, State_bind, random_below.
    destruct (HP e He) as (_ & Hdraw & _).
    destruct (IH (swap l (S i) (entropy e 0 `mod` (S i + 1))) _ Hdraw) as [He' Hperm].
    split; [exact He'|]. rewrite Hperm. apply swap_perm.
Qed.

Lemma shuffleArray_spec {T} (P : Env -> Prop) (l : list T) :
  stable P -> triple P (shuffleArray l) (fun l' e => P e /\ l' ≡ₚ l).
Proof. intros HP. apply shuffle_loop_spec, HP. Qed.

(** *** Lifting to the module's state *)

Lemma triple_lift {A} (P : Env -> Prop) (R : list Question -> Prop)
    (m : State Env A) (Q : A -> Env -> Prop) :
  triple P m Q ->
  triple (fun s => P (env s) /\ R (aiGeneratedQuestions s)) (lift m)
    (fun a s => Q a (env s) /\ R (aiGeneratedQuestions s)).
Proof.
  intros Hm s [HP HR]. specialize (Hm _ HP). unfold lift.
  destruct (m (env s)) as [a e]. simpl in *. auto.
Qed.

Lemma filter_catalog_matches config :
  filter_catalog config = List.filter (matches config) mockQuestions.
Proof.
  unfold filter_catalog, matches.
  destruct (categories_given config), (cfg_difficulty config) as [d|].
  - generalize mockQuestions. intros l. induction l as [|q l IH]; simpl; [reflexivity|].
    destruct (by_category config q); simpl; [|exact IH].
    destruct (by_difficulty d q); simpl; now rewrite IH.
  - reflexivity.
  - reflexivity.
  - generalize mockQuestions. intros l. induction l as [|q l IH]; simpl; [reflexivity|].
    now rewrite <- IH.
Qed.

(** *** [getQuestions]: what holds of every call *)

Lemma getQuestions_prefix config s :
  exists assembled, run (getQuestions config) s = take (count config) assembled.
Proof.
  unfold run, getQuestions, mbind, State_bind, read_pool.
  destruct (lift (shuffleArray _) s) as [allQuestions s1].
  match goal with |- context [let '(a, s') := ?m s1 in _] => destruct (m s1) as [all2 s2] end.
  now exists all2.
Qed.

Lemma getQuestions_length config s :
  (length (run (getQuestions config) s) <= count config)%nat.
Proof.
  destruct (getQuestions_prefix config s) as [assembled ->].
  rewrite length_take. lia.
Qed.

(** Without generation the call returns a prefix of a permutation of the
    matching questions, all of them when they are no more than [count], and
    leaves the pool as it was. *)
Lemma getQuestions_without_generation config s :
  useAI config <> Some true ->
  exists shuffled,
    shuffled ≡ₚ universe config (aiGeneratedQuestions s)
    /\ run (getQuestions config) s = take (count config) shuffled
    /\ aiGeneratedQuestions (exec (getQuestions config) s) = aiGeneratedQuestions s
    /\ ((length (universe config (aiGeneratedQuestions s)) <= count config)%nat ->
        run (getQuestions config) s ≡ₚ universe config (aiGeneratedQuestions s)).
Proof.
  intros HnoAI.
  unfold run, exec, getQuestions, mbind, State_bind, read_pool.
  rewrite bool_decide_eq_false_2 by exact HnoAI. cbn [andb].
  pose proof (triple_lift (fun _ => True) (fun pool => pool = aiGeneratedQuestions s)
                _ _ (shuffleArray_spec (fun _ => True)
                       (universe config (aiGeneratedQuestions s)) stable_True)
                s (conj I eq_refl)) as [[_ Hperm] Hpool].
  unfold universe in *.
  destruct (lift (shuffleArray _) s) as [shuffled s1]. simpl in *.
  exists shuffled. repeat split; try assumption.
  intros Hlen. rewrite take_ge; [exact Hperm|].
  now rewrite Hperm.
Qed.

Lemma filter_ids_NoDup (f : Question -> bool) l :
  NoDup (map id l) -> NoDup (map id (List.filter f l)).
Proof.
  induction l as [|q l IH]; simpl; [constructor|].
  intros Hnd. apply NoDup_cons in Hnd as [Hq Hl].
  destruct (f q); simpl; [|now apply IH].
  apply NoDup_cons. split; [|now apply IH].
  intros Hin. apply Hq.
  apply list_elem_of_fmap in Hin as (q' & -> & Hin).
  apply list_elem_of_In, List.filter_In in Hin as [Hin _].
  apply list_elem_of_fmap. exists q'. split; [reflexivity|].
  now apply list_elem_of_In.
Qed.

(** Without generation the identifiers returned are distinct as soon as
    those of the catalog and the pool are. *)
Lemma getQuestions_without_generation_distinct config s :
  useAI config <> Some true ->
  NoDup (map id (mockQuestions ++ aiGeneratedQuestions s)) ->
  NoDup (map id (run (getQuestions config) s)).
Proof.
  intros HnoAI Hnd.
  destruct (getQuestions_without_generation config s HnoAI)
    as (shuffled & Hperm & -> & _).
  apply (sublist_NoDup _ (map id shuffled)).
  - rewrite Hperm. unfold universe. rewrite filter_catalog_matches.
    rewrite <- List.filter_app. now apply filter_ids_NoDup.
  - apply fmap_sublist, sublist_take.
Qed.

Lemma catalog_identifiers_distinct : NoDup (map id mockQuestions).
Proof. apply (bool_decide_unpack _). vm_compute. exact I. Qed.

(** *** Well-formed questions along the assembly path *)

Lemma catalog_well_formed : Forall Spec.well_formed mockQuestions.
Proof. repeat constructor; vm_compute; intuition discriminate. Qed.

Lemma template_well_formed c d q : is_template c d q -> generated_well_formed q.
Proof.
  intros (_ & _ & _ & Hopts & Hidx & _). unfold generated_well_formed.
  rewrite Hopts, Hidx. simpl. lia.
Qed.

Lemma format_question_spec (P : Env -> Prop) c d index q :
  stable P ->
  Spec.raw_well_formed q ->
  triple P (format_question c d index q)
    (fun q' e => generated_well_formed q' /\ P e).
Proof.
  intros HP Hq e He. simpl. split; [exact Hq|].
  destruct (HP e He) as (He1 & _ & _).
  destruct (HP _ He1) as (He2 & _ & _). exact He2.
Qed.

Lemma format_questions_spec (P : Env -> Prop) c d :
  stable P ->
  forall questionsData index,
    Forall Spec.raw_well_formed questionsData ->
    triple P (mapiM (format_question c d) index questionsData)
      (fun qs e => P e /\ Forall generated_well_formed qs).
Proof.
  intros HP questionsData.
  induction questionsData as [|q l IH]; intros index Hall; simpl.
  - apply triple_ret. auto.
  - apply Forall_cons in Hall as [Hq Hl].
    eapply triple_bind; [apply (format_question_spec P), Hq; exact HP|].
    intros q'. apply triple_assume. intros Hq'.
    eapply triple_bind; [apply (IH (S index) Hl)|].
    intros qs. apply triple_ret. intros e [He Hqs]. auto.
Qed.

Lemma generateAIQuestions_well_formed c d n :
  triple careful_service (generateAIQuestions c d n)
    (fun r e => careful_service e
                /\ exists qs, r = Returned qs /\ Forall generated_well_formed qs).
Proof.
  intros e He.
  unfold generateAIQuestions, try_catch, generate_try, generate_catch.
  unfold mbind, State_bind, next_remote. simpl.
  destruct (stable_careful e He) as (_ & _ & Htail).
  assert (Hmock : forall e0, careful_service e0 ->
            let r := getMockQuestionsForCategory c d n e0 in
            careful_service r.2 /\ Forall generated_well_formed r.1).
  { intros e0 He0.
    destruct (getMockQuestionsForCategory_spec careful_service c d n
                stable_careful e0 He0)
      as (He1 & _ & Hall).
    split; [exact He1|].
    eapply Forall_impl; [exact Hall|]. intros q. apply template_well_formed. }
  destruct (remote e 0%nat) as [| | |questionsData] eqn:Hremote; simpl.
  1-3: match goal with |- context [getMockQuestionsForCategory _ _ _ ?e0] =>
         specialize (Hmock e0 Htail); cbv zeta in Hmock;
         destruct (getMockQuestionsForCategory _ _ _ e0) as [qs e1]
       end; simpl in *; destruct Hmock; split; [assumption|]; exists qs; auto.
  pose proof (format_questions_spec careful_service c d stable_careful
                questionsData 0 (He _ _ Hremote) _ Htail) as Hfmt.
  destruct (mapiM (format_question c d) 0 questionsData _) as [qs e1]. simpl in *.
  destruct Hfmt. split; [assumption|]. exists qs. auto.
Qed.

Lemma convert_spec (P : Env -> Prop) q :
  stable P ->
  generated_well_formed q ->
  triple P (convert q) (fun q' e => Spec.well_formed q' /\ P e).
Proof.
  intros HP Hq e He. simpl. split; [exact Hq|].
  destruct (HP e He) as (He1 & _ & _). exact He1.
Qed.

Lemma convert_all_spec (P : Env -> Prop) :
  stable P ->
  forall aiQuestions,
    Forall generated_well_formed aiQuestions ->
    triple P (mapM convert aiQuestions)
      (fun qs e => P e /\ Forall Spec.well_formed qs).
Proof.
  intros HP aiQuestions.
  induction aiQuestions as [|q l IH]; intros Hall; simpl.
  - apply triple_ret. auto.
  - apply Forall_cons in Hall as [Hq Hl].
    eapply triple_bind; [apply (convert_spec P), Hq; exact HP|].
    intros q'. apply triple_assume. intros Hq'.
    eapply triple_bind; [apply (IH Hl)|].
    intros qs. apply triple_ret. intros e [He Hqs]. auto.
Qed.

Lemma generate_for_well_formed cats d n :
  forall allQuestions,
    Forall Spec.well_formed allQuestions ->
    triple store_well_formed (generate_for cats d n allQuestions)
      (fun qs s => store_well_formed s /\ Forall Spec.well_formed qs).
Proof.
  induction cats as [|c cats IH]; intros allQuestions Hall; simpl.
  - apply triple_ret. auto.
  - eapply triple_bind.
    { apply (triple_lift careful_service (Forall Spec.well_formed)),
        generateAIQuestions_well_formed. }
    intros r. simpl. intros s [[Hcare (aiQuestions & -> & Hgen)] Hpool].
    unfold mbind, State_bind, read_pool, write_pool.
    pose proof (triple_lift careful_service (Forall Spec.well_formed) _ _
                  (convert_all_spec careful_service stable_careful aiQuestions Hgen)
                  s (conj Hcare Hpool)) as Hconv.
    destruct (lift (mapM convert aiQuestions) s) as [converted s1]. simpl in *.
    destruct Hconv as [[Hcare1 Hconv] Hpool1].
    apply IH.
    + apply Forall_app. auto.
    + split; simpl; [exact Hcare1|]. apply Forall_app. auto.
Qed.

Lemma getQuestions_triple config :
  triple store_well_formed (getQuestions config)
    (fun qs s => store_well_formed s /\ Forall Spec.well_formed qs).
Proof.
  unfold getQuestions.
  eapply triple_bind with
    (R := fun pool s => Forall Spec.well_formed pool /\ store_well_formed s).
  { intros s Hs. simpl. split; [apply Hs|exact Hs]. }
  intros pool. apply triple_assume. intros Hpool.
  assert (Hall : Forall Spec.well_formed
                   (filter_catalog config ++ List.filter (matches config) pool)).
  { apply Forall_app. split.
    - rewrite filter_catalog_matches.
      apply Forall_forall. intros q Hq.
      apply list_elem_of_In, List.filter_In in Hq as [Hq _].
      pose proof catalog_well_formed as Hcat. rewrite Forall_forall in Hcat.
      now apply Hcat, list_elem_of_In.
    - apply Forall_forall. intros q Hq.
      apply list_elem_of_In, List.filter_In in Hq as [Hq _].
      rewrite Forall_forall in Hpool. now apply Hpool, list_elem_of_In. }
  eapply triple_bind with
    (R := fun qs s => Forall Spec.well_formed qs /\ store_well_formed s).
  { eapply triple_weaken;
      [apply (triple_lift careful_service (Forall Spec.well_formed)),
         (shuffleArray_spec careful_service), stable_careful
      | auto | ].
    intros qs s [[Hcare Hperm] Hp]. split; [|split; assumption].
    now rewrite Hperm. }
  intros allQuestions. apply triple_assume. intros Hq.
  eapply triple_bind with
    (R := fun qs s => Forall Spec.well_formed qs /\ store_well_formed s).
  { destruct (bool_decide (useAI config = Some true)
              && (length allQuestions <? count config)%nat).
    - eapply triple_bind with
        (R := fun qs s => Forall Spec.well_formed qs /\ store_well_formed s).
      + eapply triple_weaken with
          (P' := store_well_formed)
          (Q' := fun qs s => store_well_formed s /\ Forall Spec.well_formed qs);
          [| auto | intros qs s [Hs Hqs]; split; [exact Hqs|exact Hs] ].
        destruct (categories_given config); now apply generate_for_well_formed.
      + intros qs. apply triple_assume. intros Hqs.
        eapply triple_weaken;
          [apply (triple_lift careful_service (Forall Spec.well_formed)),
             (shuffleArray_spec careful_service), stable_careful
          | auto | ].
        intros qs' s [[Hcare Hperm] Hp]. split; [|split; assumption].
        now rewrite Hperm.
    - apply triple_ret. auto. }
  intros qs. apply triple_ret. intros s [Hqs Hs]. split; [exact Hs|].
  now apply Forall_take.
Qed.

(** C9, as the code has it.  Catalog questions and fallback placeholders
    satisfy [0 <= correctAnswer < length options]; a question taken from an
    answer of the service carries the index and the options of that answer
    unchecked.  So [getQuestions] returns well-formed questions, and keeps
    the pool well formed, as long as the service answers with well-formed
    objects. *)
Theorem getQuestions_well_formed (config : QuizConfig) (s : Store) :
  careful_service (env s) ->
  Forall Spec.well_formed (aiGeneratedQuestions s) ->
  Forall Spec.well_formed mockQuestions
  /\ Forall Spec.well_formed (run (getQuestions config) s)
  /\ Forall Spec.well_formed (aiGeneratedQuestions (exec (getQuestions config) s)).
Proof.
  intros Hcare Hpool. split; [exact catalog_well_formed|].
  destruct (getQuestions_triple config s (conj Hcare Hpool)) as [[_ Hp] Hqs].
  split; assumption.
Qed.

Lemma getQuestions_well_formed_witness :
  Forall Spec.well_formed
    (run (getQuestions (Samples.algebra_quiz (Some true)))
         (Samples.fresh Samples.offline)).
Proof.
  refine (proj1 (proj2 (getQuestions_well_formed
            (Samples.algebra_quiz (Some true)) (Samples.fresh Samples.offline) _ _))).
  - intros k qd Hk. simpl in Hk. discriminate Hk.
  - simpl. constructor.
Defined.

(** C9, as stated, fails: the service answers with index 4 for four
    options, and the question reaches the session as it is. *)
Lemma getQuestions_passes_bad_index :
  ~ Forall Spec.well_formed
      (run (getQuestions (Samples.algebra_quiz (Some true)))
           (Samples.fresh Samples.careless_service)).
Proof.
  intros Hall.
  assert (Hin : exists q,
             q ∈ run (getQuestions (Samples.algebra_quiz (Some true)))
                     (Samples.fresh Samples.careless_service)
             /\ correctAnswer q = 4%Z /\ length (options q) = 4%nat).
  { eexists. split; [|split].
    - apply list_elem_of_lookup. exists 0%nat. vm_compute. reflexivity.
    - reflexivity.
    - reflexivity. }
  destruct Hin as (q & Hq & Hidx & Hlen).
  rewrite Forall_forall in Hall. specialize (Hall q Hq).
  unfold Spec.well_formed in Hall. rewrite Hidx, Hlen in Hall. lia.
Qed.

(** C4.  With no API keys and the four fallback batches of one call stamped
    within the same millisecond, the batches carry the same identifiers
    [gen_<ms>_0], [gen_<ms>_1], and the ten questions returned contain
    duplicates. *)
Theorem getQuestions_duplicate_identifiers :
  let returned := run (getQuestions Samples.mixed_quiz)
                      (Samples.fresh Samples.same_millisecond) in
  length returned = 10%nat
  /\ map id returned !! 1%nat = Some "gen_1700000000000_1"
  /\ map id returned !! 2%nat = Some "gen_1700000000000_1"
  /\ ~ NoDup (map id returned).
Proof.
  cbv zeta.
  assert (H1 : map id (run (getQuestions Samples.mixed_quiz)
                           (Samples.fresh Samples.same_millisecond)) !! 1%nat
               = Some "gen_1700000000000_1") by (vm_compute; reflexivity).
  assert (H2 : map id (run (getQuestions Samples.mixed_quiz)
                           (Samples.fresh Samples.same_millisecond)) !! 2%nat
               = Some "gen_1700000000000_1") by (vm_compute; reflexivity).
  split; [vm_compute; reflexivity|]. split; [exact H1|]. split; [exact H2|].
  intros Hnd. rewrite NoDup_alt in Hnd.
  specialize (Hnd _ _ _ H1 H2). discriminate Hnd.
Qed.

(** The scenario of the specification on this catalog: ten medium Algebra
    questions without generation give the one that matches. *)
Lemma getQuestions_short_universe :
  map id (run (getQuestions (Samples.algebra_quiz (Some false)))
              (Samples.fresh Samples.offline)) = ["math002"].
Proof. vm_compute. reflexivity. Qed.

(* ================================================================= *)
(** ** Properties of the quiz screen *)

Import QuizScreen.

Lemma offered_inv s ev :
  offered s ev = true ->
  navigation s = None /\ isLoading (hooks s) = false
  /\ exists q, questions (hooks s) !! currentQuestionIndex (hooks s) = Some q.
Proof.
  unfold offered. destruct (navigation s); [discriminate|].
  destruct (isLoading (hooks s)); [discriminate|].
  destruct (questions (hooks s) !! currentQuestionIndex (hooks s)) as [q|];
    [|discriminate].
  intros _. eauto.
Qed.

(** Run the handler behind a press down to the requests it makes and the
    render that follows. *)
Ltac handle :=
  unfold press, handleSelectAnswer, handleSubmitAnswer, handleNextQuestion,
    handleSkipQuestion, more_questions, finishQuiz, loaded,
    mbind, State_bind, mret, State_ret, Date_now, dispatch;
  simpl.

(** The dependencies of the effect are those of the previous render... *)
Ltac same_render := rewrite bool_decide_eq_true_2 by reflexivity; simpl.

(** ... or one of them differs, and the effect runs. *)
Ltac next_render := rewrite bool_decide_eq_false_2 by (intros [=]; lia); simpl.

(** A press that the screen offers, on a screen in progress: name the
    state variables and what is known of them. *)
Ltac on_screen s Hip Hoff :=
  let Hnav := fresh "Hnav" in
  let Hload := fresh "Hload" in
  let q := fresh "q" in
  let Hq := fresh "Hq" in
  destruct (offered_inv _ _ Hoff) as (Hnav & Hload & q & Hq);
  destruct Hip as [Hqs Hl Hdeps Htally Htimes Hskip Hidx];
  pose proof (lookup_lt_Some _ _ _ Hq) as Hlt;
  unfold offered in Hoff; rewrite Hnav, Hload, Hq in Hoff;
  destruct s as [[qs idx sel sub ld t0 t1 times [c i k]] d nav al pr];
  unfold tally_sum in *; simpl in *; subst qs ld d nav.

Section Sessions.
Variable p : Params.
Variable fetched : list Question.

Lemma loaded_in_progress e : in_progress fetched (run (loaded fetched) e).
Proof.
  unfold run. handle. next_render.
  constructor; simpl; try reflexivity; lia.
Qed.

Lemma step_preserves s ev e :
  in_progress fetched s ->
  navigation (run (step p s ev) e) = None ->
  in_progress fetched (run (step p s ev) e).
Proof.
  intros Hip. unfold run, step.
  destruct (offered s ev) eqn:Hoff; [|intros _; exact Hip].
  on_screen s Hip Hoff.
  destruct ev; simpl in Hoff.
  - (* an option is pressed *)
    apply andb_true_iff in Hoff as [Hsub _]. apply negb_true_iff in Hsub.
    subst sub. handle. same_render.
    intros _. constructor; simpl; auto.
  - (* Submit *)
    apply andb_true_iff in Hoff as [Hsub Hsel]. apply negb_true_iff in Hsub.
    subst sub. apply bool_decide_eq_true_1 in Hsel.
    destruct sel as [sel|]; [|congruence].
    handle. rewrite Hq. simpl. same_render.
    intros _. constructor; simpl; auto; unfold tally_sum; simpl.
    destruct (bool_decide _); simpl; lia.
  - (* Next *)
    subst sub. handle.
    destruct (idx <? length fetched - 1)%nat eqn:Hmore; simpl.
    + apply Nat.ltb_lt in Hmore. next_render.
      replace (0 <? idx + 1)%nat with true by (symmetry; apply Nat.ltb_lt; lia).
      simpl. intros _.
      constructor; simpl; auto; unfold tally_sum; simpl; try lia.
      rewrite length_app. simpl. lia.
    + same_render. discriminate.
  - (* Skip *)
    apply negb_true_iff in Hoff. subst sub. handle.
    destruct (idx <? length fetched - 1)%nat eqn:Hmore; simpl.
    + apply Nat.ltb_lt in Hmore. next_render.
      replace (0 <? idx + 1)%nat with true by (symmetry; apply Nat.ltb_lt; lia).
      simpl. intros _.
      constructor; simpl; auto; unfold tally_sum; simpl; try lia.
      rewrite !length_app. simpl. lia.
    + same_render. discriminate.
  - (* Quit *)
    handle. same_render. discriminate.
Qed.

Lemma reachable_in_progress s :
  reachable p fetched s -> navigation s = None -> in_progress fetched s.
Proof.
  induction 1 as [e|s ev e Hreach IH]; intros Hnav.
  - apply loaded_in_progress.
  - destruct (navigation s) as [r|] eqn:Hs.
    + exfalso. revert Hnav. unfold run, step, offered. rewrite Hs. simpl.
      rewrite Hs. discriminate.
    + apply step_preserves; [now apply IH|exact Hnav].
Qed.

(** What the last press of a session hands over. *)
Lemma step_finishes s ev e r :
  in_progress fetched s ->
  navigation s = None ->
  navigation (run (step p s ev) e) = Some r ->
  (ev = ConfirmQuit /\ r = Back)
  \/ exists rp,
       r = Results rp
       /\ r_totalQuestions (summary rp) = length fetched
       /\ (currentQuestionIndex (hooks s) + 1 = length fetched)%nat
       /\ r_skipped (summary rp) = skipped (results (hooks s))
       /\ averageTimePerQuestion (summary rp)
          = div (Fin (sum_times (timePerQuestion (hooks s))))
                (of_nat (length (timePerQuestion (hooks s))))
       /\ ((ev = PressNext /\ summary_sum (summary rp) = length fetched)
           \/ (ev = PressSkip
               /\ (summary_sum (summary rp) + 1)%nat = length fetched)).
Proof.
  intros Hip Hnav0. unfold run, step.
  destruct (offered s ev) eqn:Hoff; [|simpl; congruence].
  clear Hnav0. on_screen s Hip Hoff.
  destruct ev; simpl in Hoff.
  - handle. destruct (negb sub); simpl; same_render; discriminate.
  - apply andb_true_iff in Hoff as [_ Hsel].
    apply bool_decide_eq_true_1 in Hsel.
    destruct sel as [sel|]; [|congruence].
    handle. rewrite Hq. simpl. same_render. discriminate.
  - subst sub. handle.
    destruct (idx <? length fetched - 1)%nat eqn:Hmore; simpl.
    + apply Nat.ltb_lt in Hmore. next_render.
      destruct (0 <? idx + 1)%nat; simpl; discriminate.
    + apply Nat.ltb_ge in Hmore. same_render.
      intros [= <-]. right. eexists. split; [reflexivity|]. simpl.
      unfold summary_sum. simpl. repeat split; try lia.
      left. split; [reflexivity|lia].
  - apply negb_true_iff in Hoff. subst sub. handle.
    destruct (idx <? length fetched - 1)%nat eqn:Hmore; simpl.
    + apply Nat.ltb_lt in Hmore. next_render.
      destruct (0 <? idx + 1)%nat; simpl; discriminate.
    + apply Nat.ltb_ge in Hmore. same_render.
      intros [= <-]. right. eexists. split; [reflexivity|]. simpl.
      unfold summary_sum. simpl. repeat split; try lia.
      right. split; [reflexivity|lia].
  - handle. same_render. intros [= <-]. left. auto.
Qed.

Lemma session_reachable events :
  forall s e,
    reachable p fetched s ->
    reachable p fetched (run (session p s events) e).
Proof.
  induction events as [|ev events IH]; intros s e Hs; [exact Hs|].
  unfold run. simpl. unfold mbind, State_bind.
  pose proof (reachable_step p fetched s ev e Hs) as Hstep. unfold run in Hstep.
  destruct (step p s ev e) as [s' e']. simpl in Hstep.
  apply (IH s' e' Hstep).
Qed.

Lemma play_reachable events e :
  reachable p fetched (run (play p fetched events) e).
Proof.
  unfold run, play, mbind, State_bind.
  pose proof (reachable_loaded p fetched e) as Hload. unfold run in Hload.
  destruct (loaded fetched e) as [s e']. simpl in Hload.
  apply (session_reachable events s e' Hload).
Qed.

End Sessions.

(** Where the code and the specification agree: a session whose last
    question is answered reports tallies that sum to the question count. *)
Lemma finished_by_next_sums p fetched s e rp :
  reachable p fetched s ->
  navigation s = None ->
  navigation (run (step p s PressNext) e) = Some (Results rp) ->
  summary_sum (summary rp) = r_totalQuestions (summary rp).
Proof.
  intros Hreach Hnav Hfin.
  destruct (step_finishes p fetched s PressNext e _
              (reachable_in_progress _ _ _ Hreach Hnav) Hnav Hfin)
    as [(Hev & _)|(rp' & [= <-] & Htotal & _ & _ & _ & [[_ Hsum]|[Hev _]])];
    try discriminate.
  now rewrite Htotal.
Qed.

(** A session whose last question is skipped reports one less. *)
Lemma finished_by_skip_misses_one p fetched s e rp :
  reachable p fetched s ->
  navigation s = None ->
  navigation (run (step p s PressSkip) e) = Some (Results rp) ->
  (summary_sum (summary rp) + 1)%nat = r_totalQuestions (summary rp).
Proof.
  intros Hreach Hnav Hfin.
  destruct (step_finishes p fetched s PressSkip e _
              (reachable_in_progress _ _ _ Hreach Hnav) Hnav Hfin)
    as [(Hev & _)|(rp' & [= <-] & Htotal & _ & _ & _ & [[Hev _]|[_ Hsum]])];
    try discriminate.
  now rewrite Htotal.
Qed.

(** C1.  On a one-question quiz, pressing Skip finishes the session with
    tallies 0, 0, 0 out of 1: [finishQuiz] reads the tallies of the render
    in which Skip was pressed, before the skip it has just asked to record
    is applied. *)
Theorem skipping_the_last_question_is_not_counted :
  exists rp,
    navigation (run (play Samples.practice Samples.one_question [PressSkip])
                    Samples.offline) = Some (Results rp)
    /\ r_totalQuestions (summary rp) = 1%nat
    /\ r_correct (summary rp) = 0%nat
    /\ r_incorrect (summary rp) = 0%nat
    /\ r_skipped (summary rp) = 0%nat
    /\ summary_sum (summary rp) <> r_totalQuestions (summary rp).
Proof.
  eexists. split; [vm_compute; reflexivity|].
  repeat split. vm_compute. discriminate.
Qed.

(** C5, as the code has it.  Confirming Quit leaves the screen by going
    back: no result is built, [updateProgress] is not called, and the state
    of the session is dropped as it stands. *)
Theorem quitting_discards_the_session (p : Params) (fetched : list Question)
    (s : Screen) (e : Env) :
  reachable p fetched s ->
  offered s ConfirmQuit = true ->
  let s' := run (step p s ConfirmQuit) e in
  navigation s' = Some Back
  /\ hooks s' = hooks s
  /\ progress s' = progress s
  /\ alerts s' = alerts s.
Proof.
  intros Hreach Hoff. cbv zeta.
  destruct (offered_inv _ _ Hoff) as (Hnav & _ & _).
  destruct (reachable_in_progress _ _ _ Hreach Hnav) as [_ _ Hdeps _ _ _ _].
  unfold run, step. rewrite Hoff. unfold press, dispatch. simpl.
  rewrite bool_decide_eq_true_2 by (symmetry; exact Hdeps).
  repeat split.
Qed.

Lemma quitting_discards_the_session_witness :
  navigation
    (run (step Samples.practice
            (run (play Samples.practice Samples.ten_questions Samples.three_answered)
                 Samples.offline)
            ConfirmQuit) Samples.offline)
  = Some Back.
Proof.
  refine (proj1 (quitting_discards_the_session Samples.practice Samples.ten_questions
                   _ Samples.offline (play_reachable _ _ _ _) _)).
  vm_compute. reflexivity.
Defined.

(** C5, as stated, fails: quitting a ten-question session after three
    answers ends on the previous screen, with no result at all. *)
Lemma quitting_materializes_no_result :
  ~ exists rp,
      navigation
        (run (play Samples.practice Samples.ten_questions
                (Samples.three_answered ++ [ConfirmQuit])) Samples.offline)
      = Some (Results rp).
Proof. intros [rp Hrp]. vm_compute in Hrp. discriminate Hrp. Qed.

(** C6, as the code has it.  A submission moves the tallies by exactly
    one and turns the screen over to Next: Submit, Skip and the options are
    no longer offered, and a Submit that the screen does not offer changes
    nothing. *)
Theorem submit_is_offered_once (p : Params) (fetched : list Question)
    (s : Screen) (e : Env) :
  reachable p fetched s ->
  offered s PressSubmit = true ->
  let s1 := run (step p s PressSubmit) e in
  tally_sum (results (hooks s1)) = (tally_sum (results (hooks s)) + 1)%nat
  /\ isAnswerSubmitted (hooks s1) = true
  /\ offered s1 PressSubmit = false
  /\ offered s1 PressSkip = false
  /\ (forall index, offered s1 (PressOption index) = false)
  /\ offered s1 PressNext = true
  /\ (forall e', run (step p s1 PressSubmit) e' = s1).
Proof.
  intros Hreach Hoff. cbv zeta.
  destruct (offered_inv _ _ Hoff) as (Hnav & Hload & q & Hq).
  destruct (reachable_in_progress _ _ _ Hreach Hnav) as [_ _ Hdeps _ _ _ _].
  assert (Hs1 : let s1 := run (step p s PressSubmit) e in
            tally_sum (results (hooks s1)) = (tally_sum (results (hooks s)) + 1)%nat
            /\ isAnswerSubmitted (hooks s1) = true
            /\ navigation s1 = None
            /\ isLoading (hooks s1) = false
            /\ questions (hooks s1) !! currentQuestionIndex (hooks s1) = Some q).
  { assert (Hoff' := Hoff).
    unfold offered in Hoff'. rewrite Hnav, Hload, Hq in Hoff'.
    apply andb_true_iff in Hoff' as [Hsub Hsel].
    apply negb_true_iff in Hsub. apply bool_decide_eq_true_1 in Hsel.
    unfold run, step. rewrite Hoff.
    destruct s as [[qs idx sel sub ld t0 t1 times [c i k]] d nav al pr].
    simpl in *. subst sub ld d nav.
    destruct sel as [sel|]; [|congruence].
    unfold press, handleSubmitAnswer, dispatch. simpl. rewrite Hq. simpl.
    rewrite bool_decide_eq_true_2 by reflexivity. simpl.
    unfold tally_sum. simpl.
    split; [destruct (bool_decide (sel = correctAnswer q)); simpl; lia|].
    auto. }
  cbv zeta in Hs1. destruct Hs1 as (Hsum & Hsub1 & Hnav1 & Hload1 & Hq1).
  split; [exact Hsum|]. split; [exact Hsub1|].
  assert (Hno : offered (run (step p s PressSubmit) e) PressSubmit = false).
  { unfold offered. now rewrite Hnav1, Hload1, Hq1, Hsub1. }
  split; [exact Hno|].
  split; [unfold offered; now rewrite Hnav1, Hload1, Hq1, Hsub1|].
  split; [intros index; unfold offered; now rewrite Hnav1, Hload1, Hq1, Hsub1|].
  split; [unfold offered; now rewrite Hnav1, Hload1, Hq1, Hsub1|].
  intros e'. unfold run at 1. unfold step at 1. now rewrite Hno.
Qed.

Lemma submit_is_offered_once_witness :
  let s := run (play Samples.practice Samples.two_questions [PressOption 0])
               Samples.offline in
  let s1 := run (step Samples.practice s PressSubmit) Samples.offline in
  tally_sum (results (hooks s1)) = 1%nat /\ offered s1 PressSubmit = false.
Proof.
  cbv zeta.
  destruct (submit_is_offered_once Samples.practice Samples.two_questions
              (run (play Samples.practice Samples.two_questions [PressOption 0])
                   Samples.offline)
              Samples.offline (play_reachable _ _ _ _) eq_refl)
    as (Hsum & _ & Hoff & _).
  split; [exact Hsum|exact Hoff].
Defined.

(** C6, as stated, fails: [handleSubmitAnswer] has no guard of its own.
    Called again on the submitted question it raises nothing and counts the
    answer a second time. *)
Lemma second_submit_counts_again :
  let s1 := run (play Samples.practice Samples.two_questions
                   [PressOption 0; PressSubmit]) Samples.offline in
  let s2 := run (press Samples.practice s1 PressSubmit) Samples.offline in
  alerts s2 = [] /\ navigation s2 = None
  /\ results (hooks s1) = {| correct := 0; incorrect := 1; skipped := 0 |}
  /\ results (hooks s2) = {| correct := 0; incorrect := 2; skipped := 0 |}
  /\ results (hooks s2) <> results (hooks s1).
Proof.
  cbv zeta. repeat split; try (vm_compute; reflexivity).
  vm_compute. discriminate.
Qed.

(** How many times are on record when a session ends. *)
Lemma times_on_record p fetched s ev e rp :
  reachable p fetched s ->
  navigation s = None ->
  navigation (run (step p s ev) e) = Some (Results rp) ->
  length (timePerQuestion (hooks s))
  = (r_totalQuestions (summary rp) - 1 + r_skipped (summary rp))%nat.
Proof.
  intros Hreach Hnav Hfin.
  pose proof (reachable_in_progress _ _ _ Hreach Hnav) as Hip.
  destruct (step_finishes p fetched s ev e _ Hip Hnav Hfin)
    as [(_ & [=])|(rp' & [= <-] & Htotal & Hlast & Hskip & _)].
  destruct Hip as [_ _ _ _ Htimes _ _]. rewrite Htimes, Htotal, Hskip. lia.
Qed.

(** C10, as the code has it.  When the last question is answered,
    [finishQuiz] averages over the list of the render it runs in; if no
    question was skipped that list has one entry per question but the last,
    so fewer than [totalQuestions]; on a one-question quiz it is empty and
    the average is 0/0, that is [NaN]. *)
Theorem times_when_the_last_question_is_answered (p : Params)
    (fetched : list Question) (s : Screen) (e : Env) (rp : ResultsParams) :
  reachable p fetched s ->
  navigation s = None ->
  navigation (run (step p s PressNext) e) = Some (Results rp) ->
  let recorded := timePerQuestion (hooks s) in
  averageTimePerQuestion (summary rp)
    = div (Fin (sum_times recorded)) (of_nat (length recorded))
  /\ (r_skipped (summary rp) = 0%nat ->
      length recorded = (r_totalQuestions (summary rp) - 1)%nat
      /\ (length recorded < r_totalQuestions (summary rp))%nat)
  /\ (r_totalQuestions (summary rp) = 1%nat ->
      recorded = [] /\ averageTimePerQuestion (summary rp) = NaN).
Proof.
  intros Hreach Hnav Hfin. cbv zeta.
  pose proof (times_on_record _ _ _ _ _ _ Hreach Hnav Hfin) as Hlen.
  pose proof (reachable_in_progress _ _ _ Hreach Hnav) as Hip.
  destruct (step_finishes p fetched s PressNext e _ Hip Hnav Hfin)
    as [(_ & [=])|(rp' & [= <-] & Htotal & Hlast & Hskip & Havg & _)].
  destruct Hip as [_ _ _ _ _ Hle Hidx].
  split; [exact Havg|]. split.
  - intros Hzero. rewrite Hzero in Hlen. lia.
  - intros Hone.
    assert (Hnil : timePerQuestion (hooks s) = []).
    { apply length_zero_iff_nil. rewrite Hlen, Hone. rewrite Hskip. lia. }
    split; [exact Hnil|]. rewrite Havg, Hnil. reflexivity.
Qed.

Lemma times_when_the_last_question_is_answered_witness :
  exists rp,
    navigation
      (run (step Samples.practice
              (run (play Samples.practice Samples.one_question
                      [PressOption 2; PressSubmit]) Samples.offline)
              PressNext) Samples.offline) = Some (Results rp)
    /\ averageTimePerQuestion (summary rp) = NaN.
Proof.
  eexists. split; [vm_compute; reflexivity|].
  refine (proj2 (proj2 (proj2 (times_when_the_last_question_is_answered
            Samples.practice Samples.one_question
            (run (play Samples.practice Samples.one_question
                    [PressOption 2; PressSubmit]) Samples.offline)
            Samples.offline _ (play_reachable _ _ _ _) _ _)) _)).
  - vm_compute. reflexivity.
  - vm_compute. reflexivity.
  - reflexivity.
Defined.

(** C10, as stated, fails: a skipped question is timed twice, once by the
    Skip handler and once by the effect that follows the change of index.
    After one skip and one answer on a two-question quiz two times are on
    record when the session ends, not fewer than [totalQuestions]. *)
Lemma times_not_fewer_after_a_skip :
  let s := run (play Samples.practice Samples.two_questions
                  Samples.skip_then_answer) Samples.offline in
  exists rp,
    navigation
      (run (play Samples.practice Samples.two_questions
              (Samples.skip_then_answer ++ [PressNext])) Samples.offline)
    = Some (Results rp)
    /\ r_totalQuestions (summary rp) = 2%nat
    /\ averageTimePerQuestion (summary rp)
       = div (Fin (sum_times (timePerQuestion (hooks s))))
             (of_nat (length (timePerQuestion (hooks s))))
    /\ ~ (length (timePerQuestion (hooks s)) < r_totalQuestions (summary rp))%nat.
Proof.
  cbv zeta. eexists. split; [vm_compute; reflexivity|].
  split; [reflexivity|]. split; [vm_compute; reflexivity|].
  vm_compute. lia.
Qed.
